(** * quad9: a DNS-over-HTTPS provider client (provider/quad9/quad9.go)

    A shallow embedding of the quad9 adapter of doh-go and the proofs of
    its request-construction and response-validation properties.

    The adapter is glue around imported packages: [strings], [idna],
    [xip], [xhttp] and [encoding/json].  [strings.TrimSpace] is written
    out; the other packages are an interface ([Collaborators]) the
    adapter is parametric in, as the transport is injected in the code.
    The client is a mutable struct behind a pointer, so its methods are
    state transformers over a [Machine] that holds the struct, the state
    of the outside world and the log of the calls made to the transport. *)

From Stdlib Require Import ZArith NArith String Ascii List Lia.
From stdpp Require Import base option gmap strings list.

Local Open Scope string_scope.

(** ** Package [strings]: TrimSpace

    Go strings are byte sequences holding UTF-8; [string] is a sequence of
    8-bit [ascii].  [TrimSpace] removes leading and trailing white space
    as defined by Unicode ([unicode.IsSpace]); a byte sequence that is not
    the UTF-8 encoding of a white space rune is kept. *)

(** '\t', '\n', '\v', '\f', '\r', ' ' *)
Definition asciiSpace (c : ascii) : bool :=
  let n := N_of_ascii c in
  ((9 <=? n) && (n <=? 13) || (n =? 32))%N.

(** U+0085 (NEL) and U+00A0 (NBSP), two bytes each *)
Definition isSpace2 (a b : ascii) : bool :=
  ((N_of_ascii a =? 194) && ((N_of_ascii b =? 133) || (N_of_ascii b =? 160)))%N.

(** U+1680, U+2000..U+200A, U+2028, U+2029, U+202F, U+205F, U+3000,
    three bytes each *)
Definition isSpace3 (a b c : ascii) : bool :=
  let x := N_of_ascii a in
  let y := N_of_ascii b in
  let z := N_of_ascii c in
  ((x =? 225) && (y =? 154) && (z =? 128)
   || (x =? 226) && (y =? 128)
      && ((128 <=? z) && (z <=? 138) || (z =? 168) || (z =? 169) || (z =? 175))
   || (x =? 226) && (y =? 129) && (z =? 159)
   || (x =? 227) && (y =? 128) && (z =? 128))%N.

(** Drops the white space runes at the head of [s]; with [back] the bytes
    of a rune are met last byte first, as when [s] is read from its end. *)
Fixpoint dropSpace (back : bool) (s : list ascii) : list ascii :=
  match s with
  | [] => []
  | a :: s1 =>
      if asciiSpace a then dropSpace back s1 else
      match s1 with
      | [] => s
      | b :: s2 =>
          if (if back then isSpace2 b a else isSpace2 a b) then dropSpace back s2 else
          match s2 with
          | [] => s
          | c :: s3 =>
              if (if back then isSpace3 c b a else isSpace3 a b c)
              then dropSpace back s3 else s
          end
      end
  end.

Definition TrimLeftSpace (s : list ascii) : list ascii := dropSpace false s.

Definition TrimRightSpace (s : list ascii) : list ascii :=
  rev (dropSpace true (rev s)).

Definition TrimSpace (s : string) : string :=
  string_of_list_ascii (TrimRightSpace (TrimLeftSpace (list_ascii_of_string s))).

(** ** Package [dns] *)

Module dns.

(** Modelled from the spec: the declarations of package [dns] are not
    part of the adapter's file.  [Domain], [Type] and [ECS] are strings
    (the adapter converts them with [string(d)]). *)
Definition Domain : Type := string.
Definition Type_ : Type := string.
Definition ECS : Type := string.

(** Modelled from the spec: the DNSResponse shape, "a provider tag, a
    numeric status code (0 = success), and the provider's answer
    payload (opaque to this core beyond the status field)". *)
Record Response : Type := mkResponse {
  Provider : string;
  Status : Z;
  Answer : list string
}.

End dns.

(** ** Errors

    A Go [error] is either made here with [fmt.Errorf] (one [%d] verb,
    kept unformatted with its argument) or it is the error value of an
    imported package, handed on as it is: [PkgError p msg] is the error
    with message [msg] that a call into package [p] returned. *)

Inductive package : Type := idna_pkg | xip_pkg | xhttp_pkg | json_pkg.

Inductive error : Type :=
| Errorf (format : string) (a : Z)
| PkgError (p : package) (msg : string).

(** ** The imported packages *)

(** [xhttp.QueryParam] and [xhttp.Header] *)
Abbreviation QueryParam := (gmap string string).
Abbreviation Header := (gmap string string).

(** Modelled from the spec: what a body assigns to the fields of
    [dns.Response] when it is decoded ("fields: status code, provider tag,
    answer records").  A field the body does not carry is [None]. *)
Record Document : Type := mkDocument {
  doc_Provider : option string;
  doc_Status : option Z;
  doc_Answer : option (list string)
}.

Class Collaborators : Type := {
  (** [context.Context] *)
  Ctx : Type;
  (** the outside world: the network and what the transport keeps *)
  Net : Type;
  (** [*xhttp.Request], the transport handle *)
  XHttp : Type;
  (** [*xhttp.Response] *)
  Rsp : Type;
  (** [idna.ToASCII] *)
  idna_ToASCII : string → string + string;
  (** [xip.FixSubnet] *)
  xip_FixSubnet : string → string + string;
  (** [xhttp.New] *)
  xhttp_New : Net → XHttp * Net;
  (** [Get] of a [*xhttp.Request] *)
  xhttp_Get : XHttp → string → QueryParam → Ctx → Header → Net → (string + Rsp) * Net;
  (** [Bytes] of a [*xhttp.Response] *)
  rsp_Bytes : Rsp → Net → (string + string) * Net;
  (** [Close] of a [*xhttp.Response] *)
  rsp_Close : Rsp → Net → Net;
  (** the parsing half of [Decode] of a [*json.Decoder], for a [*dns.Response] *)
  json_parse : string → string + Document
}.

(** In every [E + A] above, [inl] is the error (its message) and [inr]
    the value. *)

(** [Decode(rr)] of a [*json.Decoder] stores what the body carries into the
    struct it is given and leaves the other fields as they are. *)
Definition store (doc : Document) (rr : dns.Response) : dns.Response :=
  {| dns.Provider := default (dns.Provider rr) (doc_Provider doc);
     dns.Status := default (dns.Status rr) (doc_Status doc);
     dns.Answer := default (dns.Answer rr) (doc_Answer doc) |}.

Definition json_Decode {E : Collaborators} (buf : string) (rr : dns.Response)
  : string + dns.Response :=
  match json_parse buf with
  | inl e => inl e
  | inr doc => inr (store doc rr)
  end.

(** ** Package [quad9] *)

(** Provider is a DoH provider client *)
Record Provider {E : Collaborators} : Type := mkProvider {
  provides : Z;
  xhttp : XHttp
}.

Definition DefaultProvides : Z := 0.
Definition SecuredProvides : Z := 1.
Definition UnsecuredProvides : Z := 2.

(** Upstream is DoH query upstream.  A package variable that nothing in
    the package assigns after its initialization: a constant here. *)
Definition Upstream : gmap Z string :=
  {[ DefaultProvides := "https://9.9.9.9/dns-query";
     SecuredProvides := "https://dns9.quad9.net/dns-query";
     UnsecuredProvides := "https://dns10.quad9.net/dns-query" ]}.

(** [Upstream[p]] as an expression: the zero value for a missing key *)
Definition Upstream_index (p : Z) : string := default "" (Upstream !! p).

Section Quad9.
Context {E : Collaborators}.

(** The calls the adapter makes to the transport, newest first. *)
Inductive event : Type :=
| EvGet (x : XHttp) (url : string) (param : QueryParam) (ctx : Ctx) (header : Header)
| EvClose (rsp : Rsp).

Record Machine : Type := mkMachine {
  client : Provider;
  net : Net;
  trace : list event
}.

(** A function body that has not returned yet yields [inr]; [inl r] is
    the function having returned [r] (a Go [return] in the middle of
    the body). *)
Definition Fn (R A : Type) : Type := Machine → (R + A) * Machine.

#[export] Instance Fn_ret {R} : MRet (Fn R) := λ A a m, (inr a, m).

#[export] Instance Fn_bind {R} : MBind (Fn R) := λ A B f x m,
  match x m with
  | (inl r, m') => (inl r, m')
  | (inr a, m') => f a m'
  end.

Definition Return {R A} (r : R) : Fn R A := λ m, (inl r, m).

Definition run {R} (body : Fn R R) (m : Machine) : R * Machine :=
  match body m with
  | (inl r, m') => (r, m')
  | (inr r, m') => (r, m')
  end.

(** the receiver [c] *)
Definition self {R} : Fn R Provider := λ m, (inr (client m), m).

Definition Ret : Type := option dns.Response * option error.

(** [v, err := f(...); if err != nil { return nil, err }] *)
Definition check {A} (p : package) (r : string + A) : Fn Ret A :=
  match r with
  | inl e => Return (None, Some (PkgError p e))
  | inr v => mret v
  end.

(** a call that acts on the outside world *)
Definition io {R A} (f : Net → A * Net) : Fn R A := λ m,
  let '(a, n) := f (net m) in
  (inr a, {| client := client m; net := n; trace := trace m |}).

Definition log {R} (e : event) : Fn R unit := λ m,
  (inr tt, {| client := client m; net := net m; trace := e :: trace m |}).

(** [defer rsp.Close()]: runs when the function returns, on every way
    out of [body]. *)
Definition defer_Close {R A} (rsp : Rsp) (body : Fn R A) : Fn R A := λ m,
  let '(r, m') := body m in
  (r, {| client := client m';
         net := rsp_Close rsp (net m');
         trace := EvClose rsp :: trace m' |}).

(** New returns a new quad9 provider client *)
Definition New (n : Net) : Provider * Net :=
  let '(x, n') := xhttp_New n in
  ({| provides := DefaultProvides; xhttp := x |}, n').

(** String returns string of provider *)
Definition String_ (c : Provider) : string := "quad9".

(** SetProvides set upstream provides type *)
Definition SetProvides (p : Z) : Machine → option error * Machine :=
  run (
    if decide (Upstream !! p = None) then
      Return (Some (Errorf "doh: quad9: not supported provides: %d" p))
    else
      c ← self;
      (λ m, (inr tt, {| client := {| provides := p; xhttp := xhttp c |};
                        net := net m; trace := trace m |}));;
      Return None).

(** ECSQuery do DoH query with the edns0-client-subnet option *)
Definition ECSQuery (ctx : Ctx) (d : dns.Domain) (t : dns.Type_) (s : dns.ECS)
  : Machine → Ret * Machine :=
  run (
    let name := TrimSpace d in
    name ← check idna_pkg (idna_ToASCII name);
    let param : QueryParam := {[ "name" := name; "type" := TrimSpace t ]} in
    let ss := TrimSpace s in
    param ← (if decide (ss ≠ "") then
               ss ← check xip_pkg (xip_FixSubnet ss);
               mret (<["edns_client_subnet" := ss]> param)
             else mret param);
    c ← self;
    let url := Upstream_index (provides c) in
    let header : Header := {[ "accept" := "application/dns-json" ]} in
    log (EvGet (xhttp c) url param ctx header);;
    r ← io (xhttp_Get (xhttp c) url param ctx header);
    rsp ← check xhttp_pkg r;
    defer_Close rsp (
      r ← io (rsp_Bytes rsp);
      buf ← check xhttp_pkg r;
      let rr := {| dns.Provider := String_ c; dns.Status := 0%Z; dns.Answer := [] |} in
      rr ← check json_pkg (json_Decode buf rr);
      if decide (dns.Status rr ≠ 0%Z) then
        Return (Some rr, Some (Errorf "doh: quad9: failed response code %d" (dns.Status rr)))
      else
        Return (Some rr, None))).

(** Query do DoH query *)
Definition Query (ctx : Ctx) (d : dns.Domain) (t : dns.Type_)
  : Machine → Ret * Machine :=
  ECSQuery ctx d t "".

(** *** Vocabulary of the statements

    Names for the steps of [ECSQuery], for the calls it makes and for a
    client used several times, so that the theorems can speak of them.
    [ECSQuery_eq] below relates them to [ECSQuery] as it is written. *)

(** The subnet step of [ECSQuery]: no subnet ([inr None]), the subnet
    as [xip.FixSubnet] returns it, or its error. *)
Definition fix_subnet (s : dns.ECS) : string + option string :=
  let ss := TrimSpace s in
  if decide (ss ≠ "") then
    match xip_FixSubnet ss with
    | inl e => inl e
    | inr ss => inr (Some ss)
    end
  else inr None.

(** The parameter set [ECSQuery] builds from the converted name, the
    record type and the subnet of [fix_subnet]. *)
Definition query_param (name : string) (t : dns.Type_) (cidr : option string)
  : QueryParam :=
  let param : QueryParam := {[ "name" := name; "type" := TrimSpace t ]} in
  match cidr with
  | Some ss => <["edns_client_subnet" := ss]> param
  | None => param
  end.

(** The header of every request. *)
Definition accept_header : Header := {[ "accept" := "application/dns-json" ]}.

(** The request [ECSQuery] logs when it calls [Get]. *)
Definition request (c : Provider) (ctx : Ctx) (param : QueryParam) : event :=
  EvGet (xhttp c) (Upstream_index (provides c)) param ctx accept_header.

(** The client once the request went out and the world became [n]. *)
Definition requested (ctx : Ctx) (param : QueryParam) (m : Machine) (n : Net)
  : Machine :=
  {| client := client m; net := n; trace := request (client m) ctx param :: trace m |}.

(** The client once the response [rsp] was read, the world having become
    [n], and closed. *)
Definition closed (ctx : Ctx) (param : QueryParam) (m : Machine) (rsp : Rsp) (n : Net)
  : Machine :=
  {| client := client m;
     net := rsp_Close rsp n;
     trace := EvClose rsp :: request (client m) ctx param :: trace m |}.

(** What [ECSQuery] returns for a decoded response. *)
Definition verdict (rr : dns.Response) : Ret :=
  if decide (dns.Status rr ≠ 0%Z) then
    (Some rr, Some (Errorf "doh: quad9: failed response code %d" (dns.Status rr)))
  else (Some rr, None).

(** The struct [ECSQuery] hands to the decoder. *)
Definition stamped : dns.Response :=
  {| dns.Provider := "quad9"; dns.Status := 0; dns.Answer := [] |}.

(** [ECSQuery] from the call of [Get] on, for the parameter set [param]:
    its steps written as one case analysis. *)
Definition exchange (ctx : Ctx) (param : QueryParam) (m : Machine) : Ret * Machine :=
  let c := client m in
  match xhttp_Get (xhttp c) (Upstream_index (provides c)) param ctx accept_header (net m) with
  | (inl e, n1) => ((None, Some (PkgError xhttp_pkg e)), requested ctx param m n1)
  | (inr rsp, n1) =>
      match rsp_Bytes rsp n1 with
      | (inl e, n2) => ((None, Some (PkgError xhttp_pkg e)), closed ctx param m rsp n2)
      | (inr buf, n2) =>
          match json_parse buf with
          | inl e => ((None, Some (PkgError json_pkg e)), closed ctx param m rsp n2)
          | inr doc =>
              (verdict (store doc stamped), closed ctx param m rsp n2)
          end
      end
  end.

(** [ev] is a call to the transport made between [m] and [m']: an entry
    [m'] has on top of the trace of [m]. *)
Definition issued (m m' : Machine) (ev : event) : Prop :=
  ∃ new, trace m' = (new ++ trace m)%list ∧ ev ∈ new.

(** The call [ECSQuery ctx d t s] on [m] passes its checks, gets a
    response from the transport, reads its body and the decoder accepts
    the body as [doc]. *)
Definition decodes (ctx : Ctx) (d : dns.Domain) (t : dns.Type_) (s : dns.ECS)
    (m : Machine) (doc : Document) : Prop :=
  ∃ name cidr rsp n1 buf n2,
    idna_ToASCII (TrimSpace d) = inr name
    ∧ fix_subnet s = inr cidr
    ∧ xhttp_Get (xhttp (client m)) (Upstream_index (provides (client m)))
        (query_param name t cidr) ctx accept_header (net m) = (inr rsp, n1)
    ∧ rsp_Bytes rsp n1 = (inr buf, n2)
    ∧ json_parse buf = inr doc.

(** The arguments of one call of [ECSQuery]; [Query] is the call with
    the empty subnet. *)
Record call : Type := mkCall {
  call_ctx : Ctx;
  call_d : dns.Domain;
  call_t : dns.Type_;
  call_s : dns.ECS
}.

(** The calls of [cs] made one after the other on the same client. *)
Fixpoint run_calls (cs : list call) (m : Machine) : Machine :=
  match cs with
  | [] => m
  | c :: cs' =>
      run_calls cs' (ECSQuery (call_ctx c) (call_d c) (call_t c) (call_s c) m).2
  end.

(** A client as [New] makes it, in the world [n], before any call. *)
Definition boot (n : Net) : Machine :=
  let '(c, n') := New n in
  {| client := c; net := n'; trace := [] |}.

(** What a user of the package can do with a client. *)
Inductive op : Type :=
| OpSetProvides (p : Z)
| OpECSQuery (c : call).

Definition run_op (o : op) (m : Machine) : Machine :=
  match o with
  | OpSetProvides p => (SetProvides p m).2
  | OpECSQuery c => (ECSQuery (call_ctx c) (call_d c) (call_t c) (call_s c) m).2
  end.

(** The operations of [os], one after the other on the same client. *)
Fixpoint run_ops (os : list op) (m : Machine) : Machine :=
  match os with
  | [] => m
  | o :: os' => run_ops os' (run_op o m)
  end.

End Quad9.

(** ** A test double for the imported packages

    Scripted collaborators, as a test of the adapter would inject them:
    they stand for no more than the cases listed. *)

Module Mock.

Inductive ctx : Type := Background | Canceled.

Definition quote : string := String "034" "".

(** ["k"] between double quotes *)
Definition q (k : string) : string := quote ++ k ++ quote.

(** [{"Status":0}], [{"Status":2}],
    [{"Status":0,"provider":"elsewhere"}] and the cut-off [{"Status":] *)
Definition body_ok : string := "{" ++ q "Status" ++ ":0}".
Definition body_servfail : string := "{" ++ q "Status" ++ ":2}".
Definition body_tagged : string :=
  "{" ++ q "Status" ++ ":0," ++ q "provider" ++ ":" ++ q "elsewhere" ++ "}".
Definition body_malformed : string := "{" ++ q "Status" ++ ":".

Definition ToASCII (s : string) : string + string :=
  if String.eqb s "例え.jp" then inr "xn--r8jz45g.jp"
  else if String.eqb s "xn--0" then inl "idna: invalid label"
  else if forallb (λ c, N_of_ascii c <? 128)%N (list_ascii_of_string s) then inr s
  else inl "idna: not scripted".

Definition FixSubnet (s : string) : string + string :=
  if String.eqb s "1.2.3.4" then inr "1.2.3.4/32"
  else if String.eqb s "1.2.3.4/24" then inr "1.2.3.4/24"
  else inl "xip: invalid subnet".

(** what the decoder finds in the three well-formed bodies *)
Definition doc_ok : Document :=
  {| doc_Provider := None; doc_Status := Some 0%Z; doc_Answer := None |}.
Definition doc_servfail : Document :=
  {| doc_Provider := None; doc_Status := Some 2%Z; doc_Answer := None |}.
Definition doc_tagged : Document :=
  {| doc_Provider := Some "elsewhere"; doc_Status := Some 0%Z; doc_Answer := None |}.

Definition parse (buf : string) : string + Document :=
  if String.eqb buf body_ok then inr doc_ok
  else if String.eqb buf body_servfail then inr doc_servfail
  else if String.eqb buf body_tagged then inr doc_tagged
  else inl "unexpected end of JSON input".

(** The world is the list of the replies the transport will give: a
    failure or the bytes of a body.  A canceled context fails the call. *)
Definition Get (x : nat) (url : string) (param : QueryParam) (c : ctx)
    (header : Header) (n : list (string + string)) : (string + string) * list (string + string) :=
  match c, n with
  | Canceled, _ => (inl "context canceled", n)
  | Background, [] => (inl "connection refused", [])
  | Background, r :: n' => (r, n')
  end.

Definition collaborators : Collaborators := {|
  Ctx := ctx;
  Net := list (string + string);
  XHttp := nat;
  Rsp := string;
  idna_ToASCII := ToASCII;
  xip_FixSubnet := FixSubnet;
  xhttp_New := λ n, (1%nat, n);
  xhttp_Get := Get;
  rsp_Bytes := λ rsp n, (inr rsp, n);
  rsp_Close := λ rsp n, n;
  json_parse := parse
|}.

(** a client as [New] makes it, facing a transport that answers with [replies] *)
Definition fresh (replies : list (string + string)) : Machine :=
  let '(c, n) := New (E := collaborators) replies in
  {| client := c; net := n; trace := [] |}.

End Mock.

(** * Properties *)

Example TrimSpace_ex1 : TrimSpace "  example.com " = "example.com".
Proof. reflexivity. Qed.

Section Properties.
Context {E : Collaborators}.

Implicit Types (m : Machine) (d t s name : string) (ctx : Ctx).

(** ** [ECSQuery], step by step *)

(** Runs the calls of the transport and of the decoder that are left in
    the goal, one case per outcome. *)
Ltac exchange_cases :=
  match goal with
  | |- context [xhttp_Get ?x ?u ?p ?c ?h ?w] =>
      destruct (xhttp_Get x u p c h w) as [[?|?rsp] ?n];
      cbn [net client trace]; [reflexivity|]
  end;
  match goal with
  | |- context [rsp_Bytes ?r ?w] =>
      destruct (rsp_Bytes r w) as [[?|?buf] ?n];
      cbn [net client trace]; [reflexivity|]
  end;
  match goal with
  | |- context [json_parse ?b] =>
      destruct (json_parse b) as [?|?doc];
      cbn [net client trace]; [reflexivity|]
  end;
  match goal with
  | |- context [decide (?a ≠ ?b)] => destruct (decide (a ≠ b)); reflexivity
  end.

Lemma ECSQuery_eq ctx d t s m :
  ECSQuery ctx d t s m =
  match idna_ToASCII (TrimSpace d) with
  | inl e => ((None, Some (PkgError idna_pkg e)), m)
  | inr name =>
      match fix_subnet s with
      | inl e => ((None, Some (PkgError xip_pkg e)), m)
      | inr cidr => exchange ctx (query_param name t cidr) m
      end
  end.
Proof.
  unfold ECSQuery, run, check, io, log, defer_Close, self, Return, json_Decode,
    fix_subnet, query_param, exchange, requested, closed, request, verdict,
    accept_header, stamped, String_.
  unfold mbind, mret, Fn_bind, Fn_ret. cbn [net client trace].
  destruct (idna_ToASCII (TrimSpace d)) as [e|name]; [reflexivity|].
  destruct (decide (TrimSpace s ≠ "")) as [Hs|Hs].
  - destruct (xip_FixSubnet (TrimSpace s)) as [e|ss]; [reflexivity|].
    exchange_cases.
  - exchange_cases.
Qed.

(** ** The white space of [TrimSpace] *)

Lemma TrimSpace_empty : TrimSpace "" = "".
Proof. reflexivity. Qed.

Lemma dropSpace_blank back (l : list ascii) :
  forallb asciiSpace l = true → dropSpace back l = [].
Proof.
  induction l as [|a l IH]; [reflexivity|].
  cbn [forallb]. intros [Ha Hl]%andb_prop.
  cbn [dropSpace]. rewrite Ha. exact (IH Hl).
Qed.

Lemma TrimSpace_blank s :
  forallb asciiSpace (list_ascii_of_string s) = true → TrimSpace s = "".
Proof.
  intros Hs. unfold TrimSpace, TrimLeftSpace, TrimRightSpace.
  rewrite (dropSpace_blank false _ Hs). reflexivity.
Qed.

(** ** The registry *)

Lemma Upstream_registered (p : Z) :
  is_Some (Upstream !! p)
  ↔ p = DefaultProvides ∨ p = SecuredProvides ∨ p = UnsecuredProvides.
Proof.
  unfold Upstream. rewrite !lookup_insert_is_Some, lookup_singleton_is_Some.
  unfold DefaultProvides, SecuredProvides, UnsecuredProvides. split.
  - intros [Hp|[_ [Hp|[_ Hp]]]]; subst p; auto.
  - intros [Hp|[Hp|Hp]]; subst p; [left; done|right; split; [done|left; done]|].
    right; split; [done|right; split; done].
Qed.

Lemma Upstream_index_registered (p : Z) (url : string) :
  Upstream !! p = Some url → Upstream_index p = url.
Proof. unfold Upstream_index. intros ->. reflexivity. Qed.

(** ** The subnet step and the parameter set *)

Lemma fix_subnet_none s : TrimSpace s = "" → fix_subnet s = inr None.
Proof.
  intros Hs. unfold fix_subnet. rewrite Hs.
  destruct (decide ("" ≠ "")) as [Hne|_]; [by destruct Hne | reflexivity].
Qed.

Lemma fix_subnet_some s :
  TrimSpace s ≠ "" →
  fix_subnet s = match xip_FixSubnet (TrimSpace s) with
                 | inl e => inl e
                 | inr ss => inr (Some ss)
                 end.
Proof.
  intros Hs. unfold fix_subnet.
  destruct (decide (TrimSpace s ≠ "")) as [_|Hne]; [reflexivity | by destruct Hne].
Qed.

Lemma query_param_name name t cidr : query_param name t cidr !! "name" = Some name.
Proof. unfold query_param. destruct cidr; by simplify_map_eq. Qed.

Lemma query_param_type name t cidr :
  query_param name t cidr !! "type" = Some (TrimSpace t).
Proof. unfold query_param. destruct cidr; by simplify_map_eq. Qed.

Lemma query_param_subnet name t cidr :
  query_param name t cidr !! "edns_client_subnet" = cidr.
Proof. unfold query_param. destruct cidr; by simplify_map_eq. Qed.

(** ** The exchange with the upstream *)

Ltac exchange_outcomes ctx param m :=
  unfold exchange;
  destruct (xhttp_Get (xhttp (client m)) (Upstream_index (provides (client m)))
              param ctx accept_header (net m)) as [[?|?rsp] ?n];
  [|destruct (rsp_Bytes rsp n) as [[?|?buf] ?n];
    [|destruct (json_parse buf) as [?|?doc]]].

Lemma exchange_client ctx param m : client (exchange ctx param m).2 = client m.
Proof. exchange_outcomes ctx param m; reflexivity. Qed.

Lemma exchange_trace ctx param m :
  ∃ new, trace (exchange ctx param m).2
         = (new ++ request (client m) ctx param :: trace m)%list
         ∧ (new = [] ∨ ∃ rsp, new = [EvClose rsp]).
Proof.
  exchange_outcomes ctx param m; cbn [snd trace requested closed].
  - exists []. eauto.
  - exists [EvClose rsp]. eauto.
  - exists [EvClose rsp]. eauto.
  - exists [EvClose rsp]. eauto.
Qed.

Lemma ECSQuery_client ctx d t s m : client (ECSQuery ctx d t s m).2 = client m.
Proof.
  rewrite ECSQuery_eq.
  destruct (idna_ToASCII (TrimSpace d)); [reflexivity|].
  destruct (fix_subnet s); [reflexivity|]. apply exchange_client.
Qed.

Lemma run_calls_client cs m : client (run_calls cs m) = client m.
Proof.
  revert m. induction cs as [|c cs IH]; intros m; [reflexivity|].
  cbn [run_calls]. rewrite IH. apply ECSQuery_client.
Qed.

(** ** The calls a query makes *)

Lemma issued_same m ev : ¬ issued m m ev.
Proof.
  intros (new & Hnew & Hin).
  assert (new = []) as ->.
  { apply (app_inv_tail (trace m)). symmetry. exact Hnew. }
  by apply elem_of_nil in Hin.
Qed.

Lemma exchange_issues ctx param m :
  issued m (exchange ctx param m).2 (request (client m) ctx param).
Proof.
  destruct (exchange_trace ctx param m) as (new & Htr & _).
  exists (new ++ [request (client m) ctx param])%list. split.
  - rewrite Htr, <- app_assoc. reflexivity.
  - apply elem_of_app. right. apply list_elem_of_singleton. reflexivity.
Qed.

Lemma issued_exchange ctx param m x u p c h :
  issued m (exchange ctx param m).2 (EvGet x u p c h) →
  EvGet x u p c h = request (client m) ctx param.
Proof.
  intros (new & Hnew & Hin).
  destruct (exchange_trace ctx param m) as (new0 & Htr & Hshape).
  rewrite Htr in Hnew.
  assert (new = new0 ++ [request (client m) ctx param])%list as ->.
  { apply (app_inv_tail (trace m)). rewrite <- app_assoc. symmetry. exact Hnew. }
  apply elem_of_app in Hin as [Hin|Hin].
  - destruct Hshape as [->|[rsp ->]].
    + by apply elem_of_nil in Hin.
    + apply list_elem_of_singleton in Hin. discriminate Hin.
  - by apply list_elem_of_singleton in Hin.
Qed.

Lemma ECSQuery_issues ctx d t s m name cidr :
  idna_ToASCII (TrimSpace d) = inr name →
  fix_subnet s = inr cidr →
  issued m (ECSQuery ctx d t s m).2 (request (client m) ctx (query_param name t cidr)).
Proof.
  intros Hn Hs. rewrite ECSQuery_eq, Hn, Hs. apply exchange_issues.
Qed.

Lemma issued_ECSQuery ctx d t s m x u p c h :
  issued m (ECSQuery ctx d t s m).2 (EvGet x u p c h) →
  ∃ name cidr,
    idna_ToASCII (TrimSpace d) = inr name ∧ fix_subnet s = inr cidr
    ∧ EvGet x u p c h = request (client m) ctx (query_param name t cidr).
Proof.
  rewrite ECSQuery_eq.
  destruct (idna_ToASCII (TrimSpace d)) as [e|name].
  { intros []%issued_same. }
  destruct (fix_subnet s) as [e|cidr].
  { intros []%issued_same. }
  intros Hev%issued_exchange. eauto.
Qed.

Lemma ECSQuery_decoded ctx d t s m doc :
  decodes ctx d t s m doc →
  (ECSQuery ctx d t s m).1 = verdict (store doc stamped).
Proof.
  intros (name & cidr & rsp & n1 & buf & n2 & Hn & Hs & Hg & Hb & Hp).
  rewrite ECSQuery_eq, Hn, Hs. unfold exchange. rewrite Hg, Hb, Hp. reflexivity.
Qed.

Lemma ECSQuery_response ctx d t s m rr err :
  (ECSQuery ctx d t s m).1 = (Some rr, err) →
  ∃ doc, decodes ctx d t s m doc ∧ rr = store doc stamped.
Proof.
  rewrite ECSQuery_eq. unfold decodes.
  destruct (idna_ToASCII (TrimSpace d)) as [e|name] eqn:Hn; [discriminate|].
  destruct (fix_subnet s) as [e|cidr] eqn:Hs; [discriminate|].
  unfold exchange.
  destruct (xhttp_Get _ _ _ _ _ _) as [[e|rsp] n1] eqn:Hg; [discriminate|].
  destruct (rsp_Bytes rsp n1) as [[e|buf] n2] eqn:Hb; [discriminate|].
  destruct (json_parse buf) as [e|doc] eqn:Hp; [discriminate|].
  cbn [fst]. unfold verdict. intros Hr. exists doc. split.
  - by exists name, cidr, rsp, n1, buf, n2.
  - destruct (decide _); by inversion Hr.
Qed.

(** ** The provider tag *)

(** C1 (as amended): for every body the decoder accepts, [ECSQuery]
    returns a response whose provider tag is the value the body carries
    for that field and, when the body carries none, the identifier
    "quad9": the identifier is written into the struct before the body is
    decoded into it. *)
Theorem ECSQuery_provider_tag ctx d t s m doc :
  decodes ctx d t s m doc →
  ∃ rr, (ECSQuery ctx d t s m).1.1 = Some rr
        ∧ dns.Provider rr = default "quad9" (doc_Provider doc).
Proof.
  intros Hdec. rewrite (ECSQuery_decoded _ _ _ _ _ _ Hdec).
  exists (store doc stamped). split.
  - unfold verdict. by destruct (decide _).
  - reflexivity.
Qed.

(** ** The status policy *)

(** C2: when the exchange decodes, a response whose status is not 0 is
    returned together with the error that carries the status, and a
    response whose status is 0 is returned with no error. *)
Theorem ECSQuery_status ctx d t s m doc :
  decodes ctx d t s m doc →
  let rr := store doc stamped in
  (dns.Status rr ≠ 0%Z →
   (ECSQuery ctx d t s m).1
   = (Some rr, Some (Errorf "doh: quad9: failed response code %d" (dns.Status rr))))
  ∧ (dns.Status rr = 0%Z → (ECSQuery ctx d t s m).1 = (Some rr, None)).
Proof.
  intros Hdec rr. rewrite (ECSQuery_decoded _ _ _ _ _ _ Hdec).
  fold rr. unfold verdict. split; intros Hst; by destruct (decide _).
Qed.

(** ** Choosing the upstream *)

Lemma SetProvides_eq p m :
  SetProvides p m =
  match Upstream !! p with
  | None => (Some (Errorf "doh: quad9: not supported provides: %d" p), m)
  | Some _ => (None, {| client := {| provides := p; xhttp := xhttp (client m) |};
                        net := net m; trace := trace m |})
  end.
Proof.
  unfold SetProvides, run, self, Return. unfold mbind, Fn_bind.
  destruct (decide (Upstream !! p = None)) as [->|Hp]; [reflexivity|].
  destruct (Upstream !! p); [reflexivity | by destruct Hp].
Qed.

(** C3: a mode that is not a key of the registry is refused with the
    "not supported provides" error, and the client, with everything
    around it, is left as it was. *)
Theorem SetProvides_unsupported p m :
  Upstream !! p = None →
  SetProvides p m = (Some (Errorf "doh: quad9: not supported provides: %d" p), m).
Proof. intros Hp. rewrite SetProvides_eq, Hp. reflexivity. Qed.

(** C4: a mode of the registry is accepted and becomes the active mode;
    from then on, after any number of queries, every request a query
    makes goes to the endpoint registered for that mode, and a query
    whose name and subnet pass their checks makes one. *)
Theorem SetProvides_routes p url m :
  Upstream !! p = Some url →
  ∃ m1, SetProvides p m = (None, m1)
        ∧ provides (client m1) = p
        ∧ ∀ cs ctx d t s,
            let m2 := run_calls cs m1 in
            let m3 := (ECSQuery ctx d t s m2).2 in
            (∀ x u param c h, issued m2 m3 (EvGet x u param c h) → u = url)
            ∧ (∀ name cidr,
                 idna_ToASCII (TrimSpace d) = inr name →
                 fix_subnet s = inr cidr →
                 issued m2 m3
                   (EvGet (xhttp (client m)) url (query_param name t cidr) ctx
                      accept_header)).
Proof.
  intros Hp. rewrite SetProvides_eq, Hp. eexists. split; [reflexivity|].
  split; [reflexivity|]. intros cs ctx d t s m2 m3.
  assert (client m2 = {| provides := p; xhttp := xhttp (client m) |}) as Hc.
  { unfold m2. rewrite run_calls_client. reflexivity. }
  split.
  - intros x u param c h (name & cidr & _ & _ & Hev)%issued_ECSQuery.
    unfold request in Hev. rewrite Hc in Hev. cbn [provides xhttp] in Hev.
    rewrite (Upstream_index_registered _ _ Hp) in Hev. by inversion Hev.
  - intros name cidr Hn Hs.
    pose proof (ECSQuery_issues ctx d t s m2 name cidr Hn Hs) as Hev.
    unfold request in Hev. rewrite Hc in Hev. cbn [provides xhttp] in Hev.
    rewrite (Upstream_index_registered _ _ Hp) in Hev. exact Hev.
Qed.

(** ** Queries without a subnet *)

(** C5: [Query] is [ECSQuery] with the empty subnet, and no request it
    makes has an [edns_client_subnet] parameter. *)
Theorem Query_no_subnet ctx d t m :
  Query ctx d t m = ECSQuery ctx d t "" m
  ∧ ∀ x u param c h,
      issued m (Query ctx d t m).2 (EvGet x u param c h) →
      param !! "edns_client_subnet" = None.
Proof.
  split; [reflexivity|]. unfold Query.
  intros x u param c h (name & cidr & _ & Hs & Hev)%issued_ECSQuery.
  rewrite (fix_subnet_none "" TrimSpace_empty) in Hs.
  injection Hs as <-. unfold request in Hev. injection Hev as _ _ -> _ _.
  exact (query_param_subnet name t None).
Qed.

(** ** The checks on the name and on the subnet *)

(** C6: when the trimmed domain does not convert, [ECSQuery] returns the
    error of the conversion and no response, and nothing else happens
    (no request goes out); when it converts, every request the call
    makes has the converted name as its [name] parameter, and the call
    makes one as soon as the subnet passes its check. *)
Theorem ECSQuery_name ctx d t s m :
  (∀ e, idna_ToASCII (TrimSpace d) = inl e →
        ECSQuery ctx d t s m = ((None, Some (PkgError idna_pkg e)), m))
  ∧ (∀ name, idna_ToASCII (TrimSpace d) = inr name →
       (∀ x u param c h,
          issued m (ECSQuery ctx d t s m).2 (EvGet x u param c h) →
          param !! "name" = Some name)
       ∧ (∀ cidr, fix_subnet s = inr cidr →
            ∃ param, issued m (ECSQuery ctx d t s m).2 (request (client m) ctx param)
                     ∧ param !! "name" = Some name)).
Proof.
  split.
  - intros e Hn. rewrite ECSQuery_eq, Hn. reflexivity.
  - intros name Hn. split.
    + intros x u param c h (name' & cidr & Hn' & _ & Hev)%issued_ECSQuery.
      rewrite Hn in Hn'. injection Hn' as <-.
      unfold request in Hev. injection Hev as _ _ -> _ _.
      apply query_param_name.
    + intros cidr Hs. exists (query_param name t cidr). split.
      * by apply ECSQuery_issues.
      * apply query_param_name.
Qed.

(** C7: for a domain that converts and a subnet that is not empty once
    trimmed, a subnet [xip.FixSubnet] accepts goes, in the form it returns,
    into the [edns_client_subnet] parameter of the request the call makes;
    a subnet it refuses makes [ECSQuery] return its error and no
    response, and nothing else happens (no request goes out). *)
Theorem ECSQuery_subnet ctx d t s m name :
  idna_ToASCII (TrimSpace d) = inr name →
  TrimSpace s ≠ "" →
  (∀ cidr, xip_FixSubnet (TrimSpace s) = inr cidr →
     (∃ param, issued m (ECSQuery ctx d t s m).2 (request (client m) ctx param)
               ∧ param !! "edns_client_subnet" = Some cidr)
     ∧ (∀ x u param c h,
          issued m (ECSQuery ctx d t s m).2 (EvGet x u param c h) →
          param !! "edns_client_subnet" = Some cidr))
  ∧ (∀ e, xip_FixSubnet (TrimSpace s) = inl e →
          ECSQuery ctx d t s m = ((None, Some (PkgError xip_pkg e)), m)).
Proof.
  intros Hn Hs. pose proof (fix_subnet_some s Hs) as Hfix. split.
  - intros cidr Hx. rewrite Hx in Hfix. split.
    + exists (query_param name t (Some cidr)). split.
      * by apply ECSQuery_issues.
      * apply query_param_subnet.
    + intros x u param c h (name' & cidr' & _ & Hs' & Hev)%issued_ECSQuery.
      rewrite Hfix in Hs'. injection Hs' as <-.
      unfold request in Hev. injection Hev as _ _ -> _ _.
      exact (query_param_subnet name' t (Some cidr)).
  - intros e Hx. rewrite Hx in Hfix. rewrite ECSQuery_eq, Hn, Hfix. reflexivity.
Qed.

(** ** The client across queries *)

(** C8: whatever the arguments and whatever the outcome, a query leaves
    the client as it was: the same active mode and the same transport
    handle, also after any number of queries. *)
Theorem queries_keep_client ctx d t s m :
  client (ECSQuery ctx d t s m).2 = client m
  ∧ client (Query ctx d t m).2 = client m
  ∧ ∀ cs, provides (client (run_calls cs m)) = provides (client m)
          ∧ xhttp (client (run_calls cs m)) = xhttp (client m).
Proof.
  split; [apply ECSQuery_client|]. split; [apply ECSQuery_client|].
  intros cs. by rewrite run_calls_client.
Qed.

(** ** Corner cases of the checks *)


(** C10: the name is checked before the subnet: when the domain does not
    convert, [ECSQuery] returns the error of the conversion whatever the
    subnet, and when it returns the error of [xip.FixSubnet], the domain
    has converted. *)
Theorem ECSQuery_name_before_subnet ctx d t m :
  (∀ e, idna_ToASCII (TrimSpace d) = inl e →
        ∀ s, ECSQuery ctx d t s m = ((None, Some (PkgError idna_pkg e)), m))
  ∧ (∀ s e, (ECSQuery ctx d t s m).1.2 = Some (PkgError xip_pkg e) →
            ∃ name, idna_ToASCII (TrimSpace d) = inr name
                    ∧ xip_FixSubnet (TrimSpace s) = inl e).
Proof.
  split.
  - intros e Hn s. rewrite ECSQuery_eq, Hn. reflexivity.
  - intros s e. rewrite ECSQuery_eq.
    destruct (idna_ToASCII (TrimSpace d)) as [e'|name]; [discriminate|].
    unfold fix_subnet. destruct (decide (TrimSpace s ≠ "")) as [Hs|Hs].
    + destruct (xip_FixSubnet (TrimSpace s)) as [e'|ss].
      * cbn [fst snd]. intros [= <-]. eauto.
      * exchange_outcomes ctx (query_param name t (Some ss)) m; cbn [fst snd];
          try discriminate.
        unfold verdict. by destruct (decide _).
    + exchange_outcomes ctx (query_param name t None) m; cbn [fst snd];
        try discriminate.
      unfold verdict. by destruct (decide _).
Qed.

End Properties.

(** * The theorems at work on the test double *)

Section Witnesses.

Local Existing Instance Mock.collaborators.

Lemma decodes_mock (d t s name body : string) (cidr : option string)
  (rest : list (string + string)) (doc : Document) :
Mock.ToASCII (TrimSpace d) = inr name →
fix_subnet s = inr cidr →
Mock.parse body = inr doc →
decodes Mock.Background d t s (Mock.fresh (inr body :: rest)) doc.
Proof.
intros Hn Hs Hp. exists name, cidr, body, rest, body, rest. done.
Qed.

(** The body [{"Status":0,"provider":"elsewhere"}] is accepted and the
  response comes back tagged "elsewhere", not "quad9". *)
Lemma ECSQuery_provider_tag_overwritten :
decodes Mock.Background "example.com" "A" "" (Mock.fresh [inr Mock.body_tagged])
  Mock.doc_tagged
∧ (ECSQuery Mock.Background "example.com" "A" "" (Mock.fresh [inr Mock.body_tagged])).1
  = (Some {| dns.Provider := "elsewhere"; dns.Status := 0; dns.Answer := [] |}, None)
∧ "elsewhere" ≠ String_ (client (Mock.fresh [inr Mock.body_tagged])).
Proof.
split; [|split].
- by apply (decodes_mock _ _ _ "example.com" _ None).
- vm_compute. reflexivity.
- discriminate.
Qed.

Lemma ECSQuery_provider_tag_witness :
decodes Mock.Background "example.com" "A" "" (Mock.fresh [inr Mock.body_ok]) Mock.doc_ok
∧ ∃ rr, (ECSQuery Mock.Background "example.com" "A" ""
           (Mock.fresh [inr Mock.body_ok])).1.1 = Some rr
        ∧ dns.Provider rr = "quad9".
Proof.
assert (decodes Mock.Background "example.com" "A" ""
          (Mock.fresh [inr Mock.body_ok]) Mock.doc_ok) as Hdec.
{ by apply (decodes_mock _ _ _ "example.com" _ None). }
split; [exact Hdec|].
exact (ECSQuery_provider_tag _ _ _ _ _ _ Hdec).
Defined.

Lemma ECSQuery_status_witness :
decodes Mock.Background "example.com" "A" "" (Mock.fresh [inr Mock.body_servfail])
  Mock.doc_servfail
∧ (ECSQuery Mock.Background "example.com" "A" ""
     (Mock.fresh [inr Mock.body_servfail])).1
  = (Some {| dns.Provider := "quad9"; dns.Status := 2; dns.Answer := [] |},
     Some (Errorf "doh: quad9: failed response code %d" 2))
∧ decodes Mock.Background "example.com" "A" "" (Mock.fresh [inr Mock.body_ok]) Mock.doc_ok
∧ (ECSQuery Mock.Background "example.com" "A" "" (Mock.fresh [inr Mock.body_ok])).1
  = (Some {| dns.Provider := "quad9"; dns.Status := 0; dns.Answer := [] |}, None).
Proof.
assert (decodes Mock.Background "example.com" "A" ""
          (Mock.fresh [inr Mock.body_servfail]) Mock.doc_servfail) as Hfail.
{ by apply (decodes_mock _ _ _ "example.com" _ None). }
assert (decodes Mock.Background "example.com" "A" ""
          (Mock.fresh [inr Mock.body_ok]) Mock.doc_ok) as Hok.
{ by apply (decodes_mock _ _ _ "example.com" _ None). }
split; [exact Hfail|]. split.
{ apply (proj1 (ECSQuery_status _ _ _ _ _ _ Hfail)). discriminate. }
split; [exact Hok|].
apply (proj2 (ECSQuery_status _ _ _ _ _ _ Hok)). reflexivity.
Defined.

Lemma SetProvides_unsupported_witness :
Upstream !! 3%Z = None
∧ SetProvides 3 (Mock.fresh [])
  = (Some (Errorf "doh: quad9: not supported provides: %d" 3), Mock.fresh []).
Proof.
split; [reflexivity|]. apply SetProvides_unsupported. reflexivity.
Defined.

Lemma SetProvides_routes_witness :
Upstream !! SecuredProvides = Some "https://dns9.quad9.net/dns-query"
∧ ∃ m1, SetProvides SecuredProvides (Mock.fresh [inr Mock.body_ok]) = (None, m1)
        ∧ provides (client m1) = SecuredProvides
        ∧ ∀ cs ctx d t s,
            let m2 := run_calls cs m1 in
            let m3 := (ECSQuery ctx d t s m2).2 in
            (∀ x u param c h,
               issued m2 m3 (EvGet x u param c h) →
               u = "https://dns9.quad9.net/dns-query")
            ∧ (∀ name cidr,
                 idna_ToASCII (TrimSpace d) = inr name →
                 fix_subnet s = inr cidr →
                 issued m2 m3
                   (EvGet (xhttp (client (Mock.fresh [inr Mock.body_ok])))
                      "https://dns9.quad9.net/dns-query"
                      (query_param name t cidr) ctx accept_header)).
Proof.
split; [reflexivity|]. apply SetProvides_routes. reflexivity.
Defined.

Lemma Query_no_subnet_witness :
Query Mock.Background "example.com" "A" (Mock.fresh [inr Mock.body_ok])
= ECSQuery Mock.Background "example.com" "A" "" (Mock.fresh [inr Mock.body_ok])
∧ ∀ x u param c h,
    issued (Mock.fresh [inr Mock.body_ok])
      (Query Mock.Background "example.com" "A" (Mock.fresh [inr Mock.body_ok])).2
      (EvGet x u param c h) →
    param !! "edns_client_subnet" = None.
Proof. apply Query_no_subnet. Defined.

Lemma ECSQuery_name_witness :
(Mock.ToASCII (TrimSpace " xn--0 ") = inl "idna: invalid label"
 ∧ ECSQuery Mock.Background " xn--0 " "A" "1.2.3.4" (Mock.fresh [inr Mock.body_ok])
   = ((None, Some (PkgError idna_pkg "idna: invalid label")),
      Mock.fresh [inr Mock.body_ok]))
∧ (Mock.ToASCII (TrimSpace " 例え.jp ") = inr "xn--r8jz45g.jp"
   ∧ fix_subnet "" = inr None
   ∧ ∃ param,
       issued (Mock.fresh [inr Mock.body_ok])
         (ECSQuery Mock.Background " 例え.jp " "A" "" (Mock.fresh [inr Mock.body_ok])).2
         (request (client (Mock.fresh [inr Mock.body_ok])) Mock.Background param)
       ∧ param !! "name" = Some "xn--r8jz45g.jp").
Proof.
split.
- split; [reflexivity|].
  apply (proj1 (ECSQuery_name (E := Mock.collaborators) Mock.Background " xn--0 " "A" "1.2.3.4"
                  (Mock.fresh [inr Mock.body_ok]))).
  reflexivity.
- split; [reflexivity|]. split; [reflexivity|].
  apply (proj2 (proj2 (ECSQuery_name (E := Mock.collaborators) Mock.Background " 例え.jp " "A" ""
                         (Mock.fresh [inr Mock.body_ok]))
                  "xn--r8jz45g.jp" eq_refl) None).
  reflexivity.
Defined.

Lemma ECSQuery_subnet_witness :
(Mock.ToASCII (TrimSpace "example.com") = inr "example.com"
 ∧ TrimSpace " 1.2.3.4 " ≠ ""
 ∧ Mock.FixSubnet (TrimSpace " 1.2.3.4 ") = inr "1.2.3.4/32"
 ∧ ∃ param,
     issued (Mock.fresh [inr Mock.body_ok])
       (ECSQuery Mock.Background "example.com" "A" " 1.2.3.4 "
          (Mock.fresh [inr Mock.body_ok])).2
       (request (client (Mock.fresh [inr Mock.body_ok])) Mock.Background param)
     ∧ param !! "edns_client_subnet" = Some "1.2.3.4/32")
∧ (TrimSpace "not-an-ip" ≠ ""
   ∧ Mock.FixSubnet (TrimSpace "not-an-ip") = inl "xip: invalid subnet"
   ∧ ECSQuery Mock.Background "example.com" "A" "not-an-ip"
       (Mock.fresh [inr Mock.body_ok])
     = ((None, Some (PkgError xip_pkg "xip: invalid subnet")),
        Mock.fresh [inr Mock.body_ok])).
Proof.
split.
- split; [reflexivity|]. split; [discriminate|]. split; [reflexivity|].
  apply (proj1 (proj1 (ECSQuery_subnet (E := Mock.collaborators) Mock.Background
                         "example.com" "A" " 1.2.3.4 "
                         (Mock.fresh [inr Mock.body_ok]) "example.com"
                         eq_refl ltac:(discriminate))
                  "1.2.3.4/32" eq_refl)).
- split; [discriminate|]. split; [reflexivity|].
  apply (proj2 (ECSQuery_subnet (E := Mock.collaborators) Mock.Background
                  "example.com" "A" "not-an-ip"
                  (Mock.fresh [inr Mock.body_ok]) "example.com"
                  eq_refl ltac:(discriminate))).
  reflexivity.
Defined.


Lemma ECSQuery_name_before_subnet_witness :
(Mock.ToASCII (TrimSpace "xn--0") = inl "idna: invalid label"
 ∧ ECSQuery Mock.Background "xn--0" "A" "not-an-ip" (Mock.fresh [inr Mock.body_ok])
   = ((None, Some (PkgError idna_pkg "idna: invalid label")),
      Mock.fresh [inr Mock.body_ok]))
∧ ((ECSQuery Mock.Background "example.com" "A" "not-an-ip"
      (Mock.fresh [inr Mock.body_ok])).1.2
   = Some (PkgError xip_pkg "xip: invalid subnet")
   ∧ ∃ name, Mock.ToASCII (TrimSpace "example.com") = inr name
             ∧ Mock.FixSubnet (TrimSpace "not-an-ip") = inl "xip: invalid subnet").
Proof.
split.
- split; [reflexivity|].
  apply (proj1 (ECSQuery_name_before_subnet (E := Mock.collaborators)
                  Mock.Background "xn--0" "A" (Mock.fresh [inr Mock.body_ok]))).
  reflexivity.
- split; [vm_compute; reflexivity|].
  apply (proj2 (ECSQuery_name_before_subnet (E := Mock.collaborators)
                  Mock.Background "example.com" "A" (Mock.fresh [inr Mock.body_ok]))
           "not-an-ip").
  vm_compute. reflexivity.
Defined.

End Witnesses.

(** ** Every way out of [ECSQuery], run on the test double *)

Section Runs.

Local Existing Instance Mock.collaborators.

(** the transport fails: the request went out, nothing was opened *)
Example ECSQuery_run_refused :
  ECSQuery Mock.Background "example.com" "A" "" (Mock.fresh [inl "connection refused"])
  = ((None, Some (PkgError xhttp_pkg "connection refused")),
     {| client := {| provides := 0; xhttp := 1%nat |};
        net := [];
        trace := [EvGet 1%nat "https://9.9.9.9/dns-query"
                    {[ "name" := "example.com"; "type" := "A" ]}
                    Mock.Background {[ "accept" := "application/dns-json" ]}] |}).
Proof. vm_compute. reflexivity. Qed.

(** a canceled context fails the call of the transport *)
Example ECSQuery_run_canceled :
  (ECSQuery Mock.Canceled "example.com" "A" "" (Mock.fresh [inr Mock.body_ok])).1
  = (None, Some (PkgError xhttp_pkg "context canceled")).
Proof. vm_compute. reflexivity. Qed.

(** a body that does not decode: no response, and the response handle
    is closed all the same *)
Example ECSQuery_run_malformed :
  ECSQuery Mock.Background "example.com" " AAAA " "1.2.3.4/24"
    (Mock.fresh [inr Mock.body_malformed])
  = ((None, Some (PkgError json_pkg "unexpected end of JSON input")),
     {| client := {| provides := 0; xhttp := 1%nat |};
        net := [];
        trace := [EvClose Mock.body_malformed;
                  EvGet 1%nat "https://9.9.9.9/dns-query"
                    {[ "name" := "example.com"; "type" := "AAAA";
                       "edns_client_subnet" := "1.2.3.4/24" ]}
                    Mock.Background {[ "accept" := "application/dns-json" ]}] |}).
Proof. vm_compute. reflexivity. Qed.

(** two queries on one client after [SetProvides]: both go to the
    endpoint of the mode, the second finds the transport out of replies *)
Example run_calls_secured :
  trace (run_calls [mkCall Mock.Background "a.example" "A" "";
                    mkCall Mock.Background "b.example" "MX" ""]
           (SetProvides SecuredProvides (Mock.fresh [inr Mock.body_servfail])).2)
  = [EvGet 1%nat "https://dns9.quad9.net/dns-query"
       {[ "name" := "b.example"; "type" := "MX" ]}
       Mock.Background {[ "accept" := "application/dns-json" ]};
     EvClose Mock.body_servfail;
     EvGet 1%nat "https://dns9.quad9.net/dns-query"
       {[ "name" := "a.example"; "type" := "A" ]}
       Mock.Background {[ "accept" := "application/dns-json" ]}].
Proof. vm_compute. reflexivity. Qed.

(** white space of more than one byte: U+00A0 in front, U+3000 behind *)
Example TrimSpace_ex2 :
  TrimSpace (String "194" (String "160" "example.com")
             ++ String "227" (String "128" (String "128" " ")))
  = "example.com".
Proof. reflexivity. Qed.

(** a lone continuation byte is no white space *)
Example TrimSpace_ex3 :
  TrimSpace (String "160" "a ") = String "160" "a".
Proof. reflexivity. Qed.

End Runs.

(** * Further properties of the adapter *)

(** ** [TrimSpace] trims once and for all *)

Lemma dropSpace_suffix back (l : list ascii) :
  ∃ pre, l = (pre ++ dropSpace back l)%list.
Proof.
  assert (∀ n (l : list ascii), (List.length l ≤ n)%nat →
            ∃ pre, l = (pre ++ dropSpace back l)%list) as Hn.
  { intros n. induction n as [|n IH]; intros k Hk.
    { destruct k; [by exists []|cbn in Hk; lia]. }
    destruct k as [|a [|b [|c k]]]; cbn [dropSpace].
    - by exists [].
    - destruct (asciiSpace a); [by exists [a]|by exists []].
    - destruct (asciiSpace a).
      { destruct (IH [b]) as [pre Hpre]; [cbn in *; lia|].
        exists (a :: pre). cbn [app]. f_equal. exact Hpre. }
      destruct (if back then isSpace2 b a else isSpace2 a b);
        [by exists [a; b]|by exists []].
    - destruct (asciiSpace a).
      { destruct (IH (b :: c :: k)) as [pre Hpre]; [cbn in *; lia|].
        exists (a :: pre). cbn [app]. f_equal. exact Hpre. }
      destruct (if back then isSpace2 b a else isSpace2 a b).
      { destruct (IH (c :: k)) as [pre Hpre]; [cbn in *; lia|].
        exists (a :: b :: pre). cbn [app]. do 2 f_equal. exact Hpre. }
      destruct (if back then isSpace3 c b a else isSpace3 a b c).
      { destruct (IH k) as [pre Hpre]; [cbn in *; lia|].
        exists (a :: b :: c :: pre). cbn [app]. do 3 f_equal. exact Hpre. }
      by exists []. }
  exact (Hn (List.length l) l (le_n _)).
Qed.

Lemma dropSpace_length back (l : list ascii) :
  (List.length (dropSpace back l) ≤ List.length l)%nat.
Proof.
  destruct (dropSpace_suffix back l) as [pre Hpre].
  rewrite Hpre at 2. rewrite length_app. lia.
Qed.

(** Nothing is dropped from a list that starts a list nothing is dropped
    from. *)
Lemma dropSpace_prefix_fixed back (r q : list ascii) :
  dropSpace back (r ++ q) = (r ++ q)%list → dropSpace back r = r.
Proof.
  intros Hfix.
  assert (∀ k : list ascii, dropSpace back k = (r ++ q)%list →
            (List.length (r ++ q)%list ≤ List.length k)%nat) as Hlen.
  { intros k <-. apply dropSpace_length. }
  destruct r as [|a [|b [|c r]]]; [reflexivity| | |];
    cbn [app dropSpace] in Hfix |- *.
  - destruct (asciiSpace a); [|reflexivity].
    apply (Hlen q) in Hfix. cbn in Hfix. lia.
  - destruct (asciiSpace a).
    { apply (Hlen (b :: q)) in Hfix. cbn in Hfix. lia. }
    destruct (if back then isSpace2 b a else isSpace2 a b); [|reflexivity].
    apply (Hlen q) in Hfix. cbn in Hfix. lia.
  - destruct (asciiSpace a).
    { apply (Hlen (b :: c :: r ++ q)%list) in Hfix. cbn in Hfix. lia. }
    destruct (if back then isSpace2 b a else isSpace2 a b).
    { apply (Hlen (c :: r ++ q)%list) in Hfix. cbn in Hfix. lia. }
    destruct (if back then isSpace3 c b a else isSpace3 a b c); [|reflexivity].
    apply (Hlen (r ++ q)%list) in Hfix. cbn in Hfix. lia.
Qed.

Lemma dropSpace_idem back (l : list ascii) :
  dropSpace back (dropSpace back l) = dropSpace back l.
Proof.
  assert (∀ n (l : list ascii), (List.length l ≤ n)%nat →
            dropSpace back (dropSpace back l) = dropSpace back l) as Hn.
  { intros n. induction n as [|n IH]; intros k Hk.
    { destruct k; [reflexivity|cbn in Hk; lia]. }
    destruct k as [|a [|b [|c k]]]; [reflexivity| | |].
    - cbn [dropSpace]. destruct (asciiSpace a) eqn:Ha; [reflexivity|].
      cbn [dropSpace]. by rewrite Ha.
    - cbn [dropSpace]. destruct (asciiSpace a) eqn:Ha.
      { apply (IH [b]). cbn in *; lia. }
      destruct (if back then isSpace2 b a else isSpace2 a b) eqn:Hab; [reflexivity|].
      cbn [dropSpace]. by rewrite Ha, Hab.
    - cbn [dropSpace]. destruct (asciiSpace a) eqn:Ha.
      { apply (IH (b :: c :: k)). cbn in *; lia. }
      destruct (if back then isSpace2 b a else isSpace2 a b) eqn:Hab.
      { apply (IH (c :: k)). cbn in *; lia. }
      destruct (if back then isSpace3 c b a else isSpace3 a b c) eqn:Habc.
      { apply (IH k). cbn in *; lia. }
      cbn [dropSpace]. by rewrite Ha, Hab, Habc. }
  exact (Hn (List.length l) l (le_n _)).
Qed.

Lemma TrimSpace_idem (s : string) : TrimSpace (TrimSpace s) = TrimSpace s.
Proof.
  unfold TrimSpace, TrimRightSpace, TrimLeftSpace.
  rewrite list_ascii_of_string_of_list_ascii.
  set (l := dropSpace false (list_ascii_of_string s)).
  destruct (dropSpace_suffix true (rev l)) as [pre Hpre].
  assert (l = rev (dropSpace true (rev l)) ++ rev pre)%list as Hl.
  { rewrite <- rev_app_distr, <- Hpre. by rewrite rev_involutive. }
  assert (dropSpace false (rev (dropSpace true (rev l)))
          = rev (dropSpace true (rev l))) as ->.
  { apply (dropSpace_prefix_fixed false _ (rev pre)). rewrite <- Hl.
    apply dropSpace_idem. }
  by rewrite rev_involutive, dropSpace_idem.
Qed.

Section More.
Context {E : Collaborators}.

Implicit Types (m : Machine) (d t s name : string) (ctx : Ctx).

Ltac exchange_paths ctx param m :=
  unfold exchange;
  destruct (xhttp_Get (xhttp (client m)) (Upstream_index (provides (client m)))
              param ctx accept_header (net m)) as [[?|?rsp] ?n] eqn:?Hget;
  [|destruct (rsp_Bytes rsp n) as [[?|?buf] ?n] eqn:?Hbytes;
    [|destruct (json_parse buf) as [?|?doc] eqn:?Hparse]].

(** ** White space around the arguments *)

(** X1: the white space around the domain, the record type and the subnet
    does not count: the call with the trimmed arguments is the same call. *)
Theorem ECSQuery_trims ctx d t s m :
  ECSQuery ctx (TrimSpace d) (TrimSpace t) (TrimSpace s) m = ECSQuery ctx d t s m.
Proof.
  rewrite !ECSQuery_eq. rewrite TrimSpace_idem.
  assert (fix_subnet (TrimSpace s) = fix_subnet s) as ->.
  { unfold fix_subnet. by rewrite TrimSpace_idem. }
  assert (∀ name cidr, query_param name (TrimSpace t) cidr = query_param name t cidr)
    as Hq.
  { intros name cidr. unfold query_param. by rewrite TrimSpace_idem. }
  destruct (idna_ToASCII (TrimSpace d)); [reflexivity|].
  destruct (fix_subnet s); [reflexivity|]. by rewrite Hq.
Qed.


(** ** What a call returns *)

(** X3: a call returns one of three things: no response and the error of
    an imported package; a response of status 0 and no error; a response
    of another status and the error that carries that status.  It never
    returns neither a response nor an error. *)
Theorem ECSQuery_result ctx d t s m :
  (∃ p msg, (ECSQuery ctx d t s m).1 = (None, Some (PkgError p msg)))
  ∨ (∃ rr, (ECSQuery ctx d t s m).1 = (Some rr, None) ∧ dns.Status rr = 0%Z)
  ∨ (∃ rr, (ECSQuery ctx d t s m).1
           = (Some rr, Some (Errorf "doh: quad9: failed response code %d"
                               (dns.Status rr)))
           ∧ dns.Status rr ≠ 0%Z).
Proof.
  rewrite ECSQuery_eq.
  destruct (idna_ToASCII (TrimSpace d)) as [e|name]; [left; eauto|].
  destruct (fix_subnet s) as [e|cidr]; [left; eauto|].
  exchange_paths ctx (query_param name t cidr) m; cbn [fst]; [left; eauto..|].
  unfold verdict. destruct (decide (dns.Status (store doc stamped) ≠ 0%Z)) as [Hst|Hst].
  - right; right. eauto.
  - right; left. exists (store doc stamped). split; [reflexivity|].
    by apply dec_stable.
Qed.

(** ** What a call does to the transport *)

Lemma ECSQuery_new_events ctx d t s m :
  trace (ECSQuery ctx d t s m).2 = trace m
  ∨ ∃ param,
      trace (ECSQuery ctx d t s m).2 = request (client m) ctx param :: trace m
      ∨ ∃ rsp, trace (ECSQuery ctx d t s m).2
               = EvClose rsp :: request (client m) ctx param :: trace m.
Proof.
  rewrite ECSQuery_eq.
  destruct (idna_ToASCII (TrimSpace d)) as [e|name]; [by left|].
  destruct (fix_subnet s) as [e|cidr]; [by left|].
  right. exists (query_param name t cidr).
  exchange_paths ctx (query_param name t cidr) m; cbn [snd trace requested closed];
    eauto.
Qed.

(** X4: a call asks the transport at most once, there is no second try:
    its calls to the transport are none, or one request, or one request
    and the closing of its response. *)
Theorem ECSQuery_one_request ctx d t s m :
  ∃ new, trace (ECSQuery ctx d t s m).2 = (new ++ trace m)%list
         ∧ (new = []
            ∨ ∃ param, new = [request (client m) ctx param]
                       ∨ ∃ rsp, new = [EvClose rsp; request (client m) ctx param]).
Proof.
  destruct (ECSQuery_new_events ctx d t s m) as [Htr|[param [Htr|[rsp Htr]]]].
  - exists []. split; [exact Htr|by left].
  - exists [request (client m) ctx param]. split; [exact Htr|]. right. eauto.
  - exists [EvClose rsp; request (client m) ctx param]. split; [exact Htr|].
    right. eauto.
Qed.

(** X5: a response the transport gives is closed before the call returns,
    after its body was read and whatever the reading and the decoding
    give; and a call closes no response but the one its request got. *)
Theorem ECSQuery_closes ctx d t s m :
  (∀ name cidr rsp n1,
     idna_ToASCII (TrimSpace d) = inr name →
     fix_subnet s = inr cidr →
     xhttp_Get (xhttp (client m)) (Upstream_index (provides (client m)))
       (query_param name t cidr) ctx accept_header (net m) = (inr rsp, n1) →
     trace (ECSQuery ctx d t s m).2
     = EvClose rsp :: request (client m) ctx (query_param name t cidr) :: trace m
     ∧ net (ECSQuery ctx d t s m).2 = rsp_Close rsp (rsp_Bytes rsp n1).2)
  ∧ (∀ rsp, issued m (ECSQuery ctx d t s m).2 (EvClose rsp) →
       ∃ name cidr n1,
         idna_ToASCII (TrimSpace d) = inr name
         ∧ fix_subnet s = inr cidr
         ∧ xhttp_Get (xhttp (client m)) (Upstream_index (provides (client m)))
             (query_param name t cidr) ctx accept_header (net m) = (inr rsp, n1)).
Proof.
  split.
  - intros name cidr rsp n1 Hn Hs Hg. rewrite ECSQuery_eq, Hn, Hs.
    unfold exchange. rewrite Hg.
    destruct (rsp_Bytes rsp n1) as [[e|buf] n2]; [done|].
    destruct (json_parse buf); done.
  - intros rsp' (new & Hnew & Hin). revert Hnew. rewrite ECSQuery_eq.
    destruct (idna_ToASCII (TrimSpace d)) as [e|name] eqn:Hn.
    { intros Hnew. destruct (issued_same m (EvClose rsp')). by exists new. }
    destruct (fix_subnet s) as [e|cidr] eqn:Hs.
    { intros Hnew. destruct (issued_same m (EvClose rsp')). by exists new. }
    exchange_paths ctx (query_param name t cidr) m;
      cbn [snd trace requested closed]; intros Hnew.
    { assert (new = [request (client m) ctx (query_param name t cidr)]) as ->.
      { by apply (app_inv_tail (trace m)). }
      apply list_elem_of_singleton in Hin. discriminate Hin. }
    all: assert (new = [EvClose rsp; request (client m) ctx (query_param name t cidr)])
      as -> by (by apply (app_inv_tail (trace m))).
    all: apply elem_of_cons in Hin as [[= ->]|Hin]; [by exists name, cidr, n|].
    all: apply list_elem_of_singleton in Hin; discriminate Hin.
Qed.

(** ** What a request carries *)

Lemma ECSQuery_request_fields_aux ctx d t s m x u param c h :
  issued m (ECSQuery ctx d t s m).2 (EvGet x u param c h) →
  x = xhttp (client m) ∧ u = Upstream_index (provides (client m)) ∧ c = ctx.
Proof.
  intros (name & cidr & _ & _ & Hev)%issued_ECSQuery.
  unfold request in Hev. by injection Hev as -> -> _ -> _.
Qed.

(** X6: every request of a call goes through the transport of the client,
    to the URL the registry has for the mode of the client, with the
    context of the caller, the one header [accept: application/dns-json]
    and the trimmed record type as its [type] parameter. *)
Theorem ECSQuery_request_fields ctx d t s m x u param c h :
  issued m (ECSQuery ctx d t s m).2 (EvGet x u param c h) →
  x = xhttp (client m)
  ∧ u = Upstream_index (provides (client m))
  ∧ c = ctx
  ∧ h = {[ "accept" := "application/dns-json" ]}
  ∧ param !! "type" = Some (TrimSpace t).
Proof.
  intros (name & cidr & _ & _ & Hev)%issued_ECSQuery.
  unfold request in Hev. injection Hev as -> -> -> -> ->.
  repeat split. exact (query_param_type name t cidr).
Qed.

(** X7: the parameters of a request are [name] and [type] and nothing
    else when the trimmed subnet is empty, and these two and
    [edns_client_subnet] when it is not. *)
Theorem ECSQuery_param_keys ctx d t s m x u param c h :
  issued m (ECSQuery ctx d t s m).2 (EvGet x u param c h) →
  dom param = if decide (TrimSpace s = "")
              then ({[ "name"; "type" ]} : gset string)
              else {[ "edns_client_subnet"; "name"; "type" ]}.
Proof.
  intros (name & cidr & _ & Hs & Hev)%issued_ECSQuery.
  unfold request in Hev. injection Hev as _ _ -> _ _.
  unfold fix_subnet in Hs.
  destruct (decide (TrimSpace s = "")) as [Hs0|Hs0].
  - destruct (decide (TrimSpace s ≠ "")) as [Hne|_]; [by destruct Hne|].
    injection Hs as <-. unfold query_param.
    rewrite dom_insert_L, dom_singleton_L. reflexivity.
  - destruct (decide (TrimSpace s ≠ "")) as [_|Hne]; [|by destruct Hne].
    destruct (xip_FixSubnet (TrimSpace s)) as [e|ss]; [discriminate|].
    injection Hs as <-. unfold query_param.
    rewrite !dom_insert_L, dom_singleton_L. set_solver.
Qed.

(** ** Choosing the upstream, again *)

(** X8: [SetProvides] accepts the modes 0, 1 and 2 and no other, and,
    accepted or not, it leaves the transport handle, the world and the
    calls made so far as they are; the mode afterwards is the new one when
    it is accepted and the old one when it is not. *)
Theorem SetProvides_accepts p m :
  ((SetProvides p m).1 = None
   ↔ p = DefaultProvides ∨ p = SecuredProvides ∨ p = UnsecuredProvides)
  ∧ provides (client (SetProvides p m).2)
    = (if (SetProvides p m).1 is None then p else provides (client m))
  ∧ xhttp (client (SetProvides p m).2) = xhttp (client m)
  ∧ net (SetProvides p m).2 = net m
  ∧ trace (SetProvides p m).2 = trace m.
Proof.
  rewrite SetProvides_eq, <- Upstream_registered.
  destruct (Upstream !! p) as [url|]; cbn [fst snd client provides xhttp net trace].
  - split; [|done]. split; [by eauto|done].
  - split; [|done]. split; [done|]. by intros [? ?].
Qed.

(** X9: the last mode accepted is the one that counts: setting a mode of
    the registry after any other call of [SetProvides] gives what setting
    it alone gives. *)
Theorem SetProvides_last_wins p q m :
  is_Some (Upstream !! q) →
  SetProvides q (SetProvides p m).2 = SetProvides q m.
Proof.
  intros [url Hq]. rewrite !SetProvides_eq, Hq.
  destruct (Upstream !! p); reflexivity.
Qed.

(** ** The client from [New] on *)

Lemma boot_eq n :
  boot n = {| client := {| provides := DefaultProvides; xhttp := (xhttp_New n).1 |};
              net := (xhttp_New n).2; trace := [] |}.
Proof. unfold boot, New. by destruct (xhttp_New n). Qed.

Lemma run_op_routed o m :
  is_Some (Upstream !! provides (client m)) →
  (∀ x u param c h, EvGet x u param c h ∈ trace m → ∃ p, Upstream !! p = Some u) →
  is_Some (Upstream !! provides (client (run_op o m)))
  ∧ xhttp (client (run_op o m)) = xhttp (client m)
  ∧ ∀ x u param c h, EvGet x u param c h ∈ trace (run_op o m) →
                     ∃ p, Upstream !! p = Some u.
Proof.
  intros Hreg Hold. destruct o as [p|[ctx d t s]]; cbn [run_op call_ctx call_d call_t call_s].
  - rewrite SetProvides_eq. destruct (Upstream !! p) as [url|] eqn:Hp;
      cbn [snd client provides xhttp trace]; eauto.
  - rewrite ECSQuery_client. split; [exact Hreg|]. split; [reflexivity|].
    intros x u param c h Hin.
    assert (∀ param', EvGet x u param c h = request (client m) ctx param' →
                      ∃ p, Upstream !! p = Some u) as Hreq.
    { intros param' [= -> -> -> -> ->]. destruct Hreg as [url Hurl].
      exists (provides (client m)). by rewrite (Upstream_index_registered _ _ Hurl). }
    destruct (ECSQuery_new_events ctx d t s m) as [Htr|[param' [Htr|[rsp Htr]]]];
      rewrite Htr in Hin.
    + eauto.
    + apply elem_of_cons in Hin as [Hin|Hin]; eauto.
    + apply elem_of_cons in Hin as [Hin|Hin]; [discriminate Hin|].
      apply elem_of_cons in Hin as [Hin|Hin]; eauto.
Qed.

(** X10: whatever is done with a client made by [New], in whatever order
    ([SetProvides] with any mode, accepted or not, and queries), its mode
    stays a key of the registry, it keeps the transport [New] gave it, and
    every request it makes goes to a URL of the registry (never to the
    empty URL of a missing key). *)
Theorem New_stays_routed (n : Net) (os : list op) :
  is_Some (Upstream !! provides (client (run_ops os (boot n))))
  ∧ xhttp (client (run_ops os (boot n))) = (xhttp_New n).1
  ∧ ∀ x u param c h,
      EvGet x u param c h ∈ trace (run_ops os (boot n)) →
      u ≠ "" ∧ ∃ p, Upstream !! p = Some u.
Proof.
  assert (∀ os m,
            is_Some (Upstream !! provides (client m)) →
            (∀ x u param c h, EvGet x u param c h ∈ trace m →
                              ∃ p, Upstream !! p = Some u) →
            is_Some (Upstream !! provides (client (run_ops os m)))
            ∧ xhttp (client (run_ops os m)) = xhttp (client m)
            ∧ ∀ x u param c h, EvGet x u param c h ∈ trace (run_ops os m) →
                               ∃ p, Upstream !! p = Some u) as Hinv.
  { clear os. intros os. induction os as [|o os IH]; intros m Hreg Hold; [by eauto|].
    cbn [run_ops].
    destruct (run_op_routed o m Hreg) as (Hreg' & Hx & Hnew); [by eauto|].
    destruct (IH (run_op o m) Hreg' Hnew) as (? & Hx' & ?).
    split; [done|]. split; [by rewrite Hx'|done]. }
  destruct (Hinv os (boot n)) as (Hreg & Hx & Hall).
  - rewrite boot_eq. cbn [client provides]. by apply Upstream_registered; left.
  - rewrite boot_eq. cbn [trace]. by intros x u param c h []%elem_of_nil.
  - split; [exact Hreg|]. split; [by rewrite Hx, boot_eq|].
    intros x u param c h Hin. destruct (Hall x u param c h Hin) as [p Hp].
    split; [|by eauto]. intros ->. revert Hp. unfold Upstream.
    rewrite !lookup_insert_Some, lookup_singleton_Some.
    intros [[_ [=]]|[_ [[_ [=]]|[_ [_ [=]]]]]].
Qed.

(** X11: until [SetProvides] is called, a client made by [New] sends the
    requests of all its queries to the default endpoint. *)
Theorem New_routes_default (n : Net) (cs : list call) ctx d t s x u param c h :
  issued (run_calls cs (boot n)) (ECSQuery ctx d t s (run_calls cs (boot n))).2
    (EvGet x u param c h) →
  u = "https://9.9.9.9/dns-query".
Proof.
  intros (-> & -> & _)%ECSQuery_request_fields_aux.
  rewrite run_calls_client, boot_eq. reflexivity.
Qed.

End More.

(** ** These properties at work on the test double *)

Section MoreWitnesses.

Local Existing Instance Mock.collaborators.


Lemma ECSQuery_closes_witness :
  Mock.ToASCII (TrimSpace "example.com") = inr "example.com"
  ∧ fix_subnet "" = inr None
  ∧ Mock.Get 1%nat "https://9.9.9.9/dns-query" (query_param "example.com" "A" None)
      Mock.Background accept_header [inr Mock.body_malformed]
    = (inr Mock.body_malformed, [])
  ∧ trace (ECSQuery Mock.Background "example.com" "A" ""
             (Mock.fresh [inr Mock.body_malformed])).2
    = [EvClose Mock.body_malformed;
       request (client (Mock.fresh [inr Mock.body_malformed])) Mock.Background
         (query_param "example.com" "A" None)]
  ∧ net (ECSQuery Mock.Background "example.com" "A" ""
           (Mock.fresh [inr Mock.body_malformed])).2 = [].
Proof.
  split; [reflexivity|]. split; [reflexivity|]. split; [reflexivity|].
  exact (proj1 (ECSQuery_closes (E := Mock.collaborators) Mock.Background
                  "example.com" "A" "" (Mock.fresh [inr Mock.body_malformed]))
           "example.com" None Mock.body_malformed [] eq_refl eq_refl eq_refl).
Defined.

Lemma ECSQuery_request_fields_witness :
  issued (Mock.fresh [inr Mock.body_ok])
    (ECSQuery Mock.Background "example.com" " MX " "" (Mock.fresh [inr Mock.body_ok])).2
    (EvGet 1%nat "https://9.9.9.9/dns-query" (query_param "example.com" " MX " None)
       Mock.Background accept_header)
  ∧ 1%nat = xhttp (client (Mock.fresh [inr Mock.body_ok]))
  ∧ "https://9.9.9.9/dns-query"
    = Upstream_index (provides (client (Mock.fresh [inr Mock.body_ok])))
  ∧ Mock.Background = Mock.Background
  ∧ accept_header = {[ "accept" := "application/dns-json" ]}
  ∧ query_param "example.com" " MX " None !! "type" = Some (TrimSpace " MX ").
Proof.
  assert (issued (Mock.fresh [inr Mock.body_ok])
            (ECSQuery Mock.Background "example.com" " MX " ""
               (Mock.fresh [inr Mock.body_ok])).2
            (EvGet 1%nat "https://9.9.9.9/dns-query"
               (query_param "example.com" " MX " None)
               Mock.Background accept_header)) as Hiss.
  { exact (ECSQuery_issues (E := Mock.collaborators) Mock.Background "example.com"
             " MX " "" (Mock.fresh [inr Mock.body_ok]) "example.com" None
             eq_refl eq_refl). }
  split; [exact Hiss|].
  exact (ECSQuery_request_fields (E := Mock.collaborators) _ _ _ _ _ _ _ _ _ _ Hiss).
Defined.

Lemma ECSQuery_param_keys_witness :
  issued (Mock.fresh [inr Mock.body_ok])
    (ECSQuery Mock.Background "example.com" "A" " 1.2.3.4 "
       (Mock.fresh [inr Mock.body_ok])).2
    (EvGet 1%nat "https://9.9.9.9/dns-query"
       (query_param "example.com" "A" (Some "1.2.3.4/32"))
       Mock.Background accept_header)
  ∧ dom (query_param "example.com" "A" (Some "1.2.3.4/32"))
    = (if decide (TrimSpace " 1.2.3.4 " = "")
       then ({[ "name"; "type" ]} : gset string)
       else {[ "edns_client_subnet"; "name"; "type" ]}).
Proof.
  assert (issued (Mock.fresh [inr Mock.body_ok])
            (ECSQuery Mock.Background "example.com" "A" " 1.2.3.4 "
               (Mock.fresh [inr Mock.body_ok])).2
            (EvGet 1%nat "https://9.9.9.9/dns-query"
               (query_param "example.com" "A" (Some "1.2.3.4/32"))
               Mock.Background accept_header)) as Hiss.
  { exact (ECSQuery_issues (E := Mock.collaborators) Mock.Background "example.com"
             "A" " 1.2.3.4 " (Mock.fresh [inr Mock.body_ok]) "example.com"
             (Some "1.2.3.4/32") eq_refl eq_refl). }
  split; [exact Hiss|].
  exact (ECSQuery_param_keys (E := Mock.collaborators) _ _ _ _ _ _ _ _ _ _ Hiss).
Defined.

Lemma SetProvides_last_wins_witness :
  is_Some (Upstream !! UnsecuredProvides)
  ∧ SetProvides UnsecuredProvides (SetProvides SecuredProvides (Mock.fresh [])).2
    = SetProvides UnsecuredProvides (Mock.fresh []).
Proof.
  assert (is_Some (Upstream !! UnsecuredProvides)) as Hq.
  { exists "https://dns10.quad9.net/dns-query". reflexivity. }
  split; [exact Hq|]. exact (SetProvides_last_wins _ _ _ Hq).
Defined.

Lemma New_routes_default_witness :
  issued (run_calls [mkCall Mock.Background "a.example" "A" ""]
            (boot [inr Mock.body_ok; inr Mock.body_servfail]))
    (ECSQuery Mock.Background "b.example" "A" ""
       (run_calls [mkCall Mock.Background "a.example" "A" ""]
          (boot [inr Mock.body_ok; inr Mock.body_servfail]))).2
    (EvGet 1%nat "https://9.9.9.9/dns-query" (query_param "b.example" "A" None)
       Mock.Background accept_header)
  ∧ "https://9.9.9.9/dns-query" = "https://9.9.9.9/dns-query".
Proof.
  assert (issued (run_calls [mkCall Mock.Background "a.example" "A" ""]
                    (boot [inr Mock.body_ok; inr Mock.body_servfail]))
            (ECSQuery Mock.Background "b.example" "A" ""
               (run_calls [mkCall Mock.Background "a.example" "A" ""]
                  (boot [inr Mock.body_ok; inr Mock.body_servfail]))).2
            (EvGet 1%nat "https://9.9.9.9/dns-query"
               (query_param "b.example" "A" None)
               Mock.Background accept_header)) as Hiss.
  { exact (ECSQuery_issues (E := Mock.collaborators) Mock.Background "b.example"
             "A" ""
             (run_calls [mkCall Mock.Background "a.example" "A" ""]
                (boot [inr Mock.body_ok; inr Mock.body_servfail]))
             "b.example" None eq_refl eq_refl). }
  split; [exact Hiss|].
  exact (New_routes_default (E := Mock.collaborators) _ _ _ _ _ _ _ _ _ _ _ Hiss).
Defined.

End MoreWitnesses.
